(** * mcphost tool servers: fetch, googlesearch, timeserver

    A shallow embedding of the three MCP tool servers under
    [cmd/mcp/servers] and the properties their specification states
    about them.  Each server is a Go [package main]; here each one is a
    module.  The parts of the Go standard library the handlers call
    ([encoding/json], [io], [net/http], [net/url], [strconv], [time])
    are modelled in module [Go], as far as the handlers use them. *)

From Stdlib Require Import ZArith QArith String Ascii DecimalString List Lia.
From Stdlib.Strings Require Import Byte.
From stdpp Require Import base option gmap strings list.

Local Open Scope string_scope.
Local Open Scope list_scope.
Local Open Scope Z_scope.

(** ** The Go runtime and library, as the handlers use it *)

Module Go.

(** [error] values.  The handlers build them with [fmt.Errorf], either
    from a plain message or by wrapping ([%w]) an error that a library
    call returned. *)
Inductive cause : Type :=
| UnsupportedValueError             (* json.Marshal: NaN or an infinity *)
| UnmarshalTypeError (field : string) (* json.Unmarshal: wrong JSON type for a field *)
| SyntaxError                       (* json.Unmarshal: malformed JSON text *)
| RequestError (msg : string)       (* http.NewRequestWithContext *)
| TransportError (msg : string)     (* http.Client.Do *)
| ReadError (msg : string)          (* Read on a response body *)
| LocationError (name : string)     (* time.LoadLocation *)
| ParseError (value : string).      (* time.Parse *)

Inductive error : Type :=
| Errorf (msg : string)
| Wrapf (msg : string) (err : cause).

(** A Go call returning [(T, error)]. *)
Definition result (T : Type) : Type := (error + T)%type.

(** Library calls return a [cause]; these chain like [if err != nil]. *)
#[global] Instance cause_ret : MRet (sum cause) := fun _ x => inr x.
#[global] Instance cause_bind : MBind (sum cause) :=
  fun _ _ k m => match m with inr x => k x | inl c => inl c end.

Definition nl : string := String (ascii_of_nat 10) EmptyString.

(** [string(b)] for a byte slice [b] *)
Definition string_of_bytes (b : list byte) : string := string_of_list_byte b.

(** [strconv.Itoa] *)
Definition Itoa (n : Z) : string := NilZero.string_of_int (Z.to_int n).

(** [strings.HasPrefix(s, prefix)] *)
Definition HasPrefix (s prefix : string) : bool := String.prefix prefix s.

(** A [float64] that holds a number is modelled by the rational it
    denotes; the handlers only compare such values with constants and
    convert them with [int(...)], which is exact on rationals. *)
Inductive float64 : Type :=
| Finite (q : Q)
| Inf (negative : bool)
| NaN.

Definition float_le (x y : Q) : bool := Qle_bool x y.
Definition float_gt (x y : Q) : bool := negb (Qle_bool x y).

Definition min_int64 : Z := - 2 ^ 63.
Definition max_int64 : Z := 2 ^ 63 - 1.

(** The conversion [int(f)] of a finite [float64]: the fraction is
    discarded (truncation toward zero).  Outside the range of [int] the
    language leaves the result to the implementation; amd64 yields the
    smallest [int64]. *)
Definition int (f : Q) : Z :=
  let n := Z.quot (Qnum f) (Z.pos (Qden f)) in
  if (min_int64 <=? n) && (n <=? max_int64) then n else min_int64.

(** The values of a tool call's [Arguments map[string]interface{}], as
    the host protocol delivers them: JSON null, booleans, numbers
    (always [float64]) and strings. *)
Inductive value : Type :=
| VNil
| VBool (b : bool)
| VNumber (f : float64)
| VString (s : string).

(** [json.Marshal] fails on a map that holds a NaN or an infinity. *)
Definition marshals (v : value) : Prop :=
  match v with
  | VNumber (Finite _) => True
  | VNumber _ => False
  | _ => True
  end.

#[global] Instance marshals_dec v : Decision (marshals v).
Proof. destruct v as [| |[| |]|]; simpl; apply _. Defined.

Definition Marshal (args : gmap string value) : cause + gmap string value :=
  if decide (map_Forall (fun _ v => marshals v) args) then inr args
  else inl UnsupportedValueError.

(** [json.Unmarshal] into one struct field: a missing key or a JSON null
    leaves the field at its zero value, a value of the field's JSON type
    is stored, any other value is a type error.  A key is looked up in
    the spelling of the field's [json] tag; that the decoder also takes
    a key that differs from the tag in letter case is not modelled. *)
Definition field_string (args : gmap string value) (name : string) : cause + string :=
  match args !! name with
  | None | Some VNil => inr ""
  | Some (VString s) => inr s
  | Some _ => inl (UnmarshalTypeError name)
  end.

Definition field_float64 (args : gmap string value) (name : string) : cause + Q :=
  match args !! name with
  | None | Some VNil => inr 0%Q
  | Some (VNumber (Finite q)) => inr q
  | Some _ => inl (UnmarshalTypeError name)
  end.

Definition field_bool (args : gmap string value) (name : string) : cause + bool :=
  match args !! name with
  | None | Some VNil => inr false
  | Some (VBool b) => inr b
  | Some _ => inl (UnmarshalTypeError name)
  end.

(** An ASCII key in lower case; two ASCII keys that agree in lower
    case are the same key to the decoder, which falls back on a match
    without regard to letter case. *)
Definition isASCII (s : string) : bool :=
  forallb (fun c => Nat.ltb (nat_of_ascii c) 128) (list_ascii_of_string s).

Definition lowerASCII (c : ascii) : ascii :=
  let n := nat_of_ascii c in
  if Nat.leb 65 n && Nat.leb n 90 then ascii_of_nat (n + 32) else c.

Fixpoint ToLower (s : string) : string :=
  match s with
  | EmptyString => EmptyString
  | String c s => String (lowerASCII c) (ToLower s)
  end.

(** *** [io]: readers, [io.LimitReader], [io.ReadAll] *)

(** What one call of [Read] reports besides the bytes. *)
Inductive read_status : Type :=
| ReadOk
| EOF
| ReadFailed (msg : string).

(** A response body: the bytes the peer still delivers, and how the
    stream ends once they are consumed (end of file, or an I/O error). *)
Record stream : Type := Stream {
  pending : list byte;
  closing : option string
}.

(** [Read(p)] with [len(p) = k] on a body: up to [k] of the pending
    bytes; the end of the stream is reported when nothing is pending. *)
Definition stream_Read (k : nat) (r : stream) : list byte * read_status * stream :=
  match pending r with
  | [] => ([], match closing r with None => EOF | Some m => ReadFailed m end, r)
  | _ => (take k (pending r), ReadOk, Stream (drop k (pending r)) (closing r))
  end.

(** [io.LimitedReader] *)
Record LimitedReader : Type := {
  R : stream;
  N : Z
}.

Definition LimitReader (r : stream) (n : Z) : LimitedReader := {| R := r; N := n |}.

Definition LimitedReader_Read (k : nat) (l : LimitedReader)
  : list byte * read_status * LimitedReader :=
  if N l <=? 0 then ([], EOF, l)
  else
    let k := if Z.of_nat k >? N l then Z.to_nat (N l) else k in
    let '(p, st, r) := stream_Read k (R l) in
    (p, st, {| R := r; N := N l - Z.of_nat (length p) |}).

(** [io.ReadAll]: read into the free part of the buffer until a call
    reports something other than success; end of file is not an error.
    The buffer starts with room for 512 bytes and [append] always leaves
    room, so every call offers at least one byte of space. *)
Definition bufsize : nat := 512.

Fixpoint ReadAll_loop (fuel : nat) (l : LimitedReader) (b : list byte)
  : option (list byte * option string) :=
  match fuel with
  | O => None
  | S fuel =>
      let '(p, st, l') := LimitedReader_Read bufsize l in
      let b := b ++ p in
      match st with
      | EOF => Some (b, None)
      | ReadFailed m => Some (b, Some m)
      | ReadOk => ReadAll_loop fuel l' b
      end
  end.

Definition ReadAll_fuel (l : LimitedReader) : nat := S (length (pending (R l))).

Definition ReadAll (l : LimitedReader) : list byte * option string :=
  default ([], None) (ReadAll_loop (ReadAll_fuel l) l []).

(** *** [net/http] *)

(** [url.Values] *)
Definition Values_Add (key val : string) (v : gmap string (list string))
  : gmap string (list string) :=
  <[key := default [] (v !! key) ++ [val]]> v.

(** An outbound request.  A request target built as
    [baseURL + "?" + values.Encode()] is kept as the base URL and the
    [url.Values] that [Encode] serialises. *)
Record Request : Type := {
  ReqMethod : string;
  ReqURL : string;
  ReqQuery : gmap string (list string);
  ReqHeader : gmap string string;
  ReqBody : option string
}.

Record Response : Type := {
  StatusCode : Z;
  RespHeader : gmap string (list string);
  ContentLength : Z;
  RespBody : stream
}.

(** [http.Client]: what [Do] answers to a request, covering the
    transport, redirects and the configured timeout. *)
Definition Client : Type := Request -> cause + Response.

Definition StatusOK : Z := 200.

(** [mcp.CallToolResult] with a single [mcp.TextContent]. *)
Record CallToolResult : Type := { Text : string }.

(** *** Handlers as computations

    A handler is a computation that may hand requests to the HTTP client
    and ends with a value or an [error].  The state is the list of the
    requests sent so far, oldest first. *)
Definition IO (T : Type) : Type := list Request -> result T * list Request.

Definition ret {T} (x : T) : IO T := fun sent => (inr x, sent).

Definition fail {T} (e : error) : IO T := fun sent => (inl e, sent).

Definition bind {T U} (k : T -> IO U) (m : IO T) : IO U :=
  fun sent =>
    match m sent with
    | (inr x, sent) => k x sent
    | (inl e, sent) => (inl e, sent)
    end.

#[global] Instance IO_ret : MRet IO := @ret.
#[global] Instance IO_bind : MBind IO := @bind.

(** [x, err := call; if err != nil { return nil, fmt.Errorf(msg: %w, err) }] *)
Definition check {T} (msg : string) (r : cause + T) : IO T :=
  match r with
  | inr x => ret x
  | inl err => fail (Wrapf msg err)
  end.

Definition Do (client : Client) (req : Request) : IO (cause + Response) :=
  fun sent => (inr (client req), sent ++ [req]).

(** Running a handler on a fresh invocation. *)
Definition run {T} (m : IO T) : result T * list Request := m [].

End Go.

(** ** googlesearch: the Google Custom Search server *)

Module GoogleSearch.
Import Go.

Record GoogleSearchResult : Type := {
  Title : string;
  Link : string;
  Snippet : string;
  DisplayLink : string
}.

Record SearchInformation : Type := {
  FormattedSearchTime : string;
  FormattedTotalResults : string
}.

(** [GoogleApiResponse], with the fields the handler reads. *)
Record GoogleApiResponse : Type := {
  searchInformation : option SearchInformation;
  Items : list GoogleSearchResult
}.

Record GoogleSearchServer : Type := {
  client : Client;
  userAgent : string;
  maxBodySize : Z;
  apiKey : string;
  searchEngineID : string
}.

Definition apiKeyMissing : string :=
  "Error: API key is not configured. Please set the API_KEY environment variable or use the -api-key flag.".
Definition searchEngineIDMissing : string :=
  "Error: Search Engine ID is not configured. Please set the SEARCH_ENGINE_ID environment variable or use the -search-engine-id flag.".
Definition properlyConfigured : string :=
  "Google Search API is properly configured and ready to use.".

(** [handleApiStatus] checks if the API configuration is valid. *)
Definition handleApiStatus (s : GoogleSearchServer) (args : gmap string value)
  : IO CallToolResult :=
  let statusMsg :=
    if decide (apiKey s = "") then apiKeyMissing
    else if decide (searchEngineID s = "") then searchEngineIDMissing
    else properlyConfigured in
  mret {| Text := statusMsg |}.

(** The anonymous [params] struct of [handleGoogleSearch]. *)
Record params : Type := {
  Query : string;
  Num : Q;
  Start : Q;
  Language : string;
  Country : string;
  SafeSearch : bool
}.

(** [json.Unmarshal(args, &params)]; the keys of a marshalled map come
    in sorted order, and the first mismatch is the one reported. *)
Definition Unmarshal_params (args : gmap string value) : cause + params :=
  country ← field_string args "country";
  language ← field_string args "language";
  num ← field_float64 args "num";
  query ← field_string args "query";
  safeSearch ← field_bool args "safeSearch";
  start ← field_float64 args "start";
  mret {| Query := query; Num := num; Start := start; Language := language;
          Country := country; SafeSearch := safeSearch |}.

(** The arguments pass [json.Marshal] and [json.Unmarshal] and fill the
    struct with [p]. *)
Definition decodes (args : gmap string value) (p : params) : Prop :=
  Marshal args = inr args ∧ Unmarshal_params args = inr p.

Definition baseURL : string := "https://www.googleapis.com/customsearch/v1".

(** The [url.Values] of the search request. *)
Definition searchValues (s : GoogleSearchServer) (p : params) : gmap string (list string) :=
  let num := if float_le (Num p) 0 then 5%Q
             else if float_gt (Num p) 10 then 10%Q else Num p in
  let start := if float_le (Start p) 0 then 1%Q else Start p in
  let values := ∅ in
  let values := Values_Add "q" (Query p) values in
  let values := Values_Add "key" (apiKey s) values in
  let values := Values_Add "cx" (searchEngineID s) values in
  let values := Values_Add "num" (Itoa (int num)) values in
  let values := Values_Add "start" (Itoa (int start)) values in
  let values := if decide (Language p = "") then values
                else Values_Add "lr" ("lang_" +:+ Language p) values in
  let values := if decide (Country p = "") then values
                else Values_Add "gl" (Country p) values in
  if SafeSearch p then Values_Add "safe" "active" values
  else Values_Add "safe" "off" values.

(** The request of [handleGoogleSearch]: a GET with the [User-Agent] and
    [Accept] headers set.  [http.NewRequestWithContext] does not fail on
    the method GET and an encoded query. *)
Definition searchRequest (s : GoogleSearchServer) (p : params) : Request :=
  {| ReqMethod := "GET";
     ReqURL := baseURL;
     ReqQuery := searchValues s p;
     ReqHeader := <["Accept" := "application/json"]> (<["User-Agent" := userAgent s]> ∅);
     ReqBody := None |}.

Fixpoint writeResults (i : Z) (results : list GoogleSearchResult) : string :=
  match results with
  | [] => ""
  | r :: results =>
      Itoa i +:+ ". " +:+ Title r +:+ nl +:+
      "   URL: " +:+ Link r +:+ nl +:+
      "   " +:+ Snippet r +:+ nl +:+ nl +:+
      writeResults (i + 1) results
  end.

Definition resultContent (query : string) (r : GoogleApiResponse) : string :=
  let totalResults := from_option FormattedTotalResults "" (searchInformation r) in
  let searchTime := from_option FormattedSearchTime "" (searchInformation r) in
  "Google Search Results for: " +:+ query +:+ nl +:+ nl +:+
  "Found approximately " +:+ totalResults +:+ " results in " +:+ searchTime +:+
  " seconds" +:+ nl +:+ nl +:+
  match Items r with
  | [] => "No results found."
  | results => writeResults 1 results
  end.

Definition apiError (body : string) (status : Z) : error :=
  Errorf ("API error: " +:+ body +:+ " (status code: " +:+ Itoa status +:+ ")").

Section Handler.

(** [json.Unmarshal(body, &apiResponse)] *)
Variable Unmarshal_response : string -> cause + GoogleApiResponse.

(** [handleGoogleSearch] handles the Google search request. *)
Definition handleGoogleSearch (s : GoogleSearchServer) (args : gmap string value)
  : IO CallToolResult :=
  if decide (apiKey s = "") then fail (Errorf "API key is not configured")
  else if decide (searchEngineID s = "") then fail (Errorf "Search Engine ID is not configured")
  else
    args ← check "failed to marshal arguments" (Marshal args);
    p ← check "invalid parameters" (Unmarshal_params args);
    if decide (Query p = "") then fail (Errorf "Search query cannot be empty")
    else
      resp ← Do (client s) (searchRequest s p);
      resp ← check "request failed" resp;
      let '(body, err) := ReadAll (LimitReader (RespBody resp) (maxBodySize s)) in
      match err with
      | Some m => fail (Wrapf "failed to read response body" (ReadError m))
      | None =>
          if decide (StatusCode resp ≠ StatusOK)
          then fail (apiError (string_of_bytes body) (StatusCode resp))
          else
            apiResponse ← check "failed to parse API response"
                            (Unmarshal_response (string_of_bytes body));
            mret {| Text := resultContent (Query p) apiResponse |}
      end.

End Handler.

(** [NewGoogleSearchServer] creates a new GoogleSearchServer instance.
    [dial timeout] is the network as an [http.Client] with that timeout,
    in seconds, reaches it. *)
Definition NewGoogleSearchServer (dial : Z -> Client) (timeout : Z) (userAgent : string)
    (maxBodySize : Z) (apiKey searchEngineID : string) : GoogleSearchServer :=
  {| client := dial timeout;
     userAgent := userAgent;
     maxBodySize := maxBodySize;
     apiKey := apiKey;
     searchEngineID := searchEngineID |}.

(** The flags of the command. *)
Record flags : Type := {
  timeoutFlag : Z;
  userAgentFlag : string;
  maxBodySizeFlag : Z;
  apiKeyFlag : string;
  searchEngineIDFlag : string
}.

(** The defaults that [init] declares. *)
Definition defaultFlags : flags :=
  {| timeoutFlag := 30;
     userAgentFlag := "MCP-GoogleSearch-Server/1.0";
     maxBodySizeFlag := 10 * 1024 * 1024;
     apiKeyFlag := "";
     searchEngineIDFlag := "" |}.

(** The server that [main] creates from the parsed flags: a credential
    that no flag provides is read from the environment, where
    [os.Getenv] gives the empty string for a variable that is not set. *)
Definition mainServer (dial : Z -> Client) (Getenv : string -> string) (f : flags)
  : GoogleSearchServer :=
  let apiKey := if decide (apiKeyFlag f = "") then Getenv "API_KEY" else apiKeyFlag f in
  let searchEngineID :=
    if decide (searchEngineIDFlag f = "") then Getenv "SEARCH_ENGINE_ID"
    else searchEngineIDFlag f in
  NewGoogleSearchServer dial (timeoutFlag f) (userAgentFlag f) (maxBodySizeFlag f)
    apiKey searchEngineID.


End GoogleSearch.

(** ** fetch: the HTTP fetch server *)

Module Fetch.
Import Go.

Record FetchServer : Type := {
  client : Client;
  userAgent : string;
  maxBodySize : Z
}.

(** The anonymous [params] struct of [handleFetchURL]. *)
Record params : Type := {
  URL : string;
  Method : string;
  Body : string;
  ContentType : string;
  Headers : string
}.

Definition Unmarshal_params (args : gmap string value) : cause + params :=
  body ← field_string args "body";
  contentType ← field_string args "contentType";
  headers ← field_string args "headers";
  method ← field_string args "method";
  url ← field_string args "url";
  mret {| URL := url; Method := method; Body := body;
          ContentType := contentType; Headers := headers |}.

(** The arguments pass [json.Marshal] and [json.Unmarshal] and fill the
    struct with [p]. *)
Definition decodes (args : gmap string value) (p : params) : Prop :=
  Marshal args = inr args ∧ Unmarshal_params args = inr p.

(** The anonymous [responseDetails] struct. *)
Record responseDetails : Type := {
  status_code : Z;
  headers : gmap string string;
  body : string;
  url : string;
  method : string
}.

(** The first value of every response header that has one. *)
Definition headerMap (h : gmap string (list string)) : gmap string string :=
  omap head h.

Section Handler.

(** [http.NewRequestWithContext] rejects a method that is not a token
    and a URL that does not parse; [None] when it accepts. *)
Variable NewRequest_error : string -> string -> option string.

(** [textproto.CanonicalMIMEHeaderKey], applied by [Header.Set]. *)
Variable CanonicalMIMEHeaderKey : string -> string.

(** [json.Unmarshal] of the [headers] parameter into a [map[string]string]. *)
Variable Unmarshal_headers : string -> cause + gmap string string.

(** [json.MarshalIndent] of the response details with a two-space
    indent; it does not fail on a struct of numbers, strings and a
    string map. *)
Variable MarshalIndent : responseDetails -> string.

Definition Header_Set (key val : string) (h : gmap string string) : gmap string string :=
  <[CanonicalMIMEHeaderKey key := val]> h.

(** The headers of the outbound request: [User-Agent], then the content
    type, then the custom headers (a [range] over the map, in an order
    the language does not fix). *)
Definition requestHeader (s : FetchServer) (p : params) (method : string)
  : cause + gmap string string :=
  let h := Header_Set "User-Agent" (userAgent s) ∅ in
  let h :=
    if decide (ContentType p ≠ "") then Header_Set "Content-Type" (ContentType p) h
    else if decide (Body p ≠ "" ∧ (method = "POST" ∨ method = "PUT" ∨ method = "PATCH"))
         then Header_Set "Content-Type" "application/json" h
         else h in
  if decide (Headers p ≠ "") then
    custom ← Unmarshal_headers (Headers p);
    mret (map_fold Header_Set h custom)
  else mret h.

(** [handleFetchURL] handles the URL fetch request. *)
Definition handleFetchURL (s : FetchServer) (args : gmap string value)
  : IO CallToolResult :=
  args ← check "failed to marshal arguments" (Marshal args);
  p ← check "invalid parameters" (Unmarshal_params args);
  if negb (HasPrefix (URL p) "http://") && negb (HasPrefix (URL p) "https://")
  then fail (Errorf "URL must begin with http:// or https://")
  else
    let method := if decide (Method p = "") then "GET" else Method p in
    let reqBody := if decide (Body p ≠ "") then Some (Body p) else None in
    match NewRequest_error method (URL p) with
    | Some m => fail (Wrapf "failed to create request" (RequestError m))
    | None =>
        h ← check "invalid headers JSON" (requestHeader s p method);
        let httpReq := {| ReqMethod := method; ReqURL := URL p; ReqQuery := ∅;
                          ReqHeader := h; ReqBody := reqBody |} in
        resp ← Do (client s) httpReq;
        resp ← check "request failed" resp;
        let '(body, err) := ReadAll (LimitReader (RespBody resp) (maxBodySize s)) in
        match err with
        | Some m => fail (Wrapf "failed to read response body" (ReadError m))
        | None =>
            let responseDetails :=
              {| status_code := StatusCode resp;
                 headers := headerMap (RespHeader resp);
                 body := string_of_bytes body;
                 url := URL p;
                 method := method |} in
            let responseJSON := MarshalIndent responseDetails in
            mret {| Text := "Response from " +:+ URL p +:+ " (status: " +:+
                            Itoa (StatusCode resp) +:+ "):" +:+ nl +:+ responseJSON |}
        end
    end.


(** The parts of [handleFetchURL], by name: the method, the request
    and the text of the report. *)
Definition fetchMethod (p : params) : string :=
  if decide (Method p = "") then "GET" else Method p.



End Handler.

End Fetch.

(** ** timeserver: the time server *)

Module TimeServer.
Import Go.

(** *** [time]: instants, locations, RFC 3339 *)

(** A [time.Location]: its name, and the offset in seconds east of UTC
    that is in force at an instant. *)
Record Location : Type := {
  locName : string;
  zoneOffset : Z -> Z
}.

Definition UTC : Location := {| locName := "UTC"; zoneOffset := fun _ => 0 |}.

Definition FixedZone (name : string) (offset : Z) : Location :=
  {| locName := name; zoneOffset := fun _ => offset |}.

(** A [time.Time]: the instant, counted in seconds and nanoseconds from
    January 1, year 1, 00:00:00 UTC, and the location it is shown in. *)
Record Time : Type := {
  sec : Z;
  nsec : Z;
  loc : Location
}.

(** [time.Time{}] *)
Definition zeroTime : Time := {| sec := 0; nsec := 0; loc := UTC |}.


(** [t.In(loc)]: the same instant, shown in [loc]. *)
Definition In (t : Time) (l : Location) : Time :=
  {| sec := sec t; nsec := nsec t; loc := l |}.

(** Days between January 1, year 1 and a date of the proleptic
    Gregorian calendar. *)
Definition daysFromCivil (y m d : Z) : Z :=
  let y := if m <=? 2 then y - 1 else y in
  let era := y / 400 in
  let yoe := y - era * 400 in
  let doy := (153 * (if m >? 2 then m - 3 else m + 9) + 2) / 5 + d - 1 in
  let doe := yoe * 365 + yoe / 4 - yoe / 100 + doy in
  era * 146097 + doe - 306.

(** The date [(year, month, day)] of a day counted from January 1, year 1. *)
Definition civilFromDays (z : Z) : Z * Z * Z :=
  let z := z + 306 in
  let era := z / 146097 in
  let doe := z - era * 146097 in
  let yoe := (doe - doe / 1460 + doe / 36524 - doe / 146096) / 365 in
  let y := yoe + era * 400 in
  let doy := doe - (365 * yoe + yoe / 4 - yoe / 100) in
  let mp := (5 * doy + 2) / 153 in
  let d := doy - (153 * mp + 2) / 5 + 1 in
  let m := if mp <? 10 then mp + 3 else mp - 9 in
  (if m <=? 2 then y + 1 else y, m, d).

Definition isLeap (y : Z) : bool :=
  (y mod 4 =? 0) && (negb (y mod 100 =? 0) || (y mod 400 =? 0)).

Definition daysIn (m y : Z) : Z :=
  if m =? 2 then (if isLeap y then 29 else 28)
  else if (m =? 4) || (m =? 6) || (m =? 9) || (m =? 11) then 30 else 31.

(** [time.Date(year, month, day, hour, min, sec, nsec, UTC)] *)
Definition Date (y m d hh mm ss ns : Z) : Time :=
  {| sec := daysFromCivil y m d * 86400 + hh * 3600 + mm * 60 + ss;
     nsec := ns; loc := UTC |}.

Definition isDigit (c : ascii) : bool :=
  let n := Z.of_nat (nat_of_ascii c) in (48 <=? n) && (n <=? 57).

Fixpoint digitsValue (acc : Z) (s : string) : option Z :=
  match s with
  | EmptyString => Some acc
  | String c s =>
      if isDigit c then digitsValue (acc * 10 + (Z.of_nat (nat_of_ascii c) - 48)) s
      else None
  end.

(** An unsigned decimal field that lies within a range. *)
Definition parseUint (s : string) (lo hi : Z) : option Z :=
  n ← digitsValue 0 s;
  if (lo <=? n) && (n <=? hi) then Some n else None.

Fixpoint leadingDigits (s : string) : string * string :=
  match s with
  | String c s' =>
      if isDigit c then let '(ds, rest) := leadingDigits s' in (String c ds, rest)
      else ("", s)
  | EmptyString => ("", "")
  end.

Fixpoint padRight (n : nat) (s : string) : string :=
  match n with
  | O => ""
  | S n => match s with
           | String c s => String c (padRight n s)
           | EmptyString => String "0" (padRight n "")
           end
  end.

(** The fraction of a second, in nanoseconds, with what follows it. *)
Definition parseFraction (s : string) : Z * string :=
  match s with
  | String "." (String c _ as ds) =>
      if isDigit c then
        let '(frac, rest) := leadingDigits ds in
        (default 0 (digitsValue 0 (padRight 9 frac)), rest)
      else (0, s)
  | _ => (0, s)
  end.

Definition sub (s : string) (i n : nat) : string := String.substring i n s.

(** The zone of an RFC 3339 time: [Z], or a sign with hours and minutes. *)
Definition parseZone (s : string) : option Z :=
  if decide (s = "Z") then Some 0
  else if decide (String.length s = 6%nat) then
    hr ← parseUint (sub s 1 2) 0 23;
    mm ← parseUint (sub s 4 2) 0 59;
    if decide (sub s 3 1 = ":") then
      if decide (sub s 0 1 = "+") then Some ((hr * 60 + mm) * 60)
      else if decide (sub s 0 1 = "-") then Some (- ((hr * 60 + mm) * 60))
      else None
    else None
  else None.

(** [time.Parse(time.RFC3339, s)]: a date and a time of the shape
    [2006-01-02T15:04:05] with every field in its range, an optional
    fraction of a second, and a zone.  This is RFC 3339 itself; the few
    forms outside it that releases of the library let pass (a comma
    before the fraction, an offset of 24 hours) are refused here. *)
Definition Parse (s : string) : cause + Time :=
  let parsed : option Time :=
    if decide (String.length s < 19)%nat then None
    else
      year ← parseUint (sub s 0 4) 0 9999;
      month ← parseUint (sub s 5 2) 1 12;
      day ← parseUint (sub s 8 2) 1 (daysIn month year);
      hour ← parseUint (sub s 11 2) 0 23;
      min ← parseUint (sub s 14 2) 0 59;
      sec ← parseUint (sub s 17 2) 0 59;
      if decide (sub s 4 1 = "-" ∧ sub s 7 1 = "-" ∧ sub s 10 1 = "T" ∧
                 sub s 13 1 = ":" ∧ sub s 16 1 = ":") then
        let '(ns, rest) := parseFraction (sub s 19 (String.length s - 19)) in
        offset ← parseZone rest;
        let t := Date year month day hour min sec ns in
        Some {| sec := TimeServer.sec t - offset; nsec := ns;
                loc := if decide (rest = "Z") then UTC else FixedZone "" offset |}
      else None in
  match parsed with
  | Some t => inr t
  | None => inl (ParseError s)
  end.

(** Decimal digits of a number, zero-padded to a width. *)
Fixpoint zeros (n : nat) : string :=
  match n with O => "" | S n => String "0" (zeros n) end.

Definition appendInt (x : Z) (width : nat) : string :=
  let ds := Itoa (Z.abs x) in
  (if x <? 0 then "-" else "") +:+ zeros (width - String.length ds) +:+ ds.

(** [t.Format(time.RFC3339)] *)
Definition Format (t : Time) : string :=
  let offset := zoneOffset (loc t) (sec t) in
  let abs := sec t + offset in
  let '(y, m, d) := civilFromDays (abs / 86400) in
  let s := abs mod 86400 in
  let zone := Z.quot offset 60 in
  appendInt y 4 +:+ "-" +:+ appendInt m 2 +:+ "-" +:+ appendInt d 2 +:+ "T" +:+
  appendInt (s / 3600) 2 +:+ ":" +:+ appendInt (s mod 3600 / 60) 2 +:+ ":" +:+
  appendInt (s mod 60) 2 +:+
  (if zone =? 0 then "Z"
   else (if zone <? 0 then "-" else "+") +:+
        appendInt (Z.abs zone / 60) 2 +:+ ":" +:+ appendInt (Z.abs zone mod 60) 2).

(** *** The server *)

Record TimeServer : Type := {
  defaultTimezone : string
}.

Section Handler.

(** The time zone database that [time.LoadLocation] consults for a name
    other than the empty one and [UTC]. *)
Variable zoneinfo : string -> option Location.

(** The reading of the wall clock, [time.Now()]. *)
Variable Now : Time.

Definition LoadLocation (name : string) : cause + Location :=
  if decide (name = "" ∨ name = "UTC") then inr UTC
  else match zoneinfo name with
       | Some l => inr l
       | None => inl (LocationError name)
       end.

(** The timezone a call uses: the requested one, or the server's
    default when none is requested. *)
Definition resolveTimezone (s : TimeServer) (requestedTimezone : string) : string :=
  if decide (requestedTimezone = "") then defaultTimezone s else requestedTimezone.

(** [convertTimeToTimezone] converts a time to the specified timezone;
    the three results are the timezone used, the time and the error. *)
Definition convertTimeToTimezone (s : TimeServer) (timeStr requestedTimezone : string)
  : string * Time * option error :=
  let timezone := if decide (requestedTimezone = "") then defaultTimezone s
                  else requestedTimezone in
  match LoadLocation timezone with
  | inl err => ("", zeroTime, Some (Wrapf "invalid timezone" err))
  | inr loc =>
      if decide (timeStr = "") then (timezone, In Now loc, None)
      else
        match Parse timeStr with
        | inl err =>
            ("", zeroTime,
             Some (Wrapf "invalid time format (expected RFC3339, e.g. 2025-04-06T14:30:00Z)" err))
        | inr parsedTime => (timezone, In parsedTime loc, None)
        end
  end.

(** The anonymous [params] struct of [handleGetCurrentTime]. *)
Record params : Type := {
  Timezone : string;
  TimeStr : string
}.

Definition Unmarshal_params (args : gmap string value) : cause + params :=
  timeStr ← field_string args "timeStr";
  timezone ← field_string args "timezone";
  mret {| Timezone := timezone; TimeStr := timeStr |}.

(** The arguments pass [json.Marshal] and [json.Unmarshal] and fill the
    struct with [p]. *)
Definition decodes (args : gmap string value) (p : params) : Prop :=
  Marshal args = inr args ∧ Unmarshal_params args = inr p.

(** [handleGetCurrentTime] handles the current time request. *)
Definition handleGetCurrentTime (s : TimeServer) (args : gmap string value)
  : IO CallToolResult :=
  args ← check "failed to marshal arguments" (Marshal args);
  p ← check "invalid parameters" (Unmarshal_params args);
  let '(timezone, now, err) := convertTimeToTimezone s (TimeStr p) (Timezone p) in
  match err with
  | Some err => fail err
  | None =>
      let resultMsg :=
        if decide (TimeStr p = "")
        then "Current time (" +:+ timezone +:+ "): " +:+ Format now
        else "Converted time (" +:+ timezone +:+ "): " +:+ Format now in
      mret {| Text := resultMsg |}
  end.

End Handler.

End TimeServer.

(** ** Sample servers, peers and invocations *)

Module Samples.
Import Go.

(** A peer that answers every request with a status and a body. *)
Definition answer (code : Z) (data : string) : Response :=
  {| StatusCode := code;
     RespHeader := ∅;
     ContentLength := Z.of_nat (String.length data);
     RespBody := Stream (list_byte_of_string data) None |}.

Definition respond (code : Z) (data : string) : Client :=
  fun _ => inr (answer code data).

Definition searchServer (key cx : string) (c : Client) : GoogleSearch.GoogleSearchServer :=
  {| GoogleSearch.client := c;
     GoogleSearch.userAgent := "MCP-GoogleSearch-Server/1.0";
     GoogleSearch.maxBodySize := 1024;
     GoogleSearch.apiKey := key;
     GoogleSearch.searchEngineID := cx |}.

(** A stand-in for the decoder of the upstream response. *)
Definition noItems : string -> cause + GoogleSearch.GoogleApiResponse :=
  fun _ => inr {| GoogleSearch.searchInformation := None; GoogleSearch.Items := [] |}.

Definition query (q : string) : gmap string value := {[ "query" := VString q ]}.

Definition queryNum (q : string) (num : Q) : gmap string value :=
  <["num" := VNumber (Finite num)]> (query q).

Definition querySafe (q : string) (safe : bool) : gmap string value :=
  <["safeSearch" := VBool safe]> (query q).

Definition fetchServer (cap : Z) (c : Client) : Fetch.FetchServer :=
  {| Fetch.client := c;
     Fetch.userAgent := "MCP-Fetch-Server/1.0";
     Fetch.maxBodySize := cap |}.

(** Stand-ins for the library calls of the fetch handler: every request
    is accepted, header keys are kept, no custom headers decode, and the
    rendering shows the body. *)
Definition accept : string -> string -> option string := fun _ _ => None.
Definition keep : string -> string := fun key => key.
Definition noHeaders : string -> cause + gmap string string := fun _ => inr ∅.
Definition render : Fetch.responseDetails -> string := Fetch.body.

Definition fetch (url : string) : gmap string value := {[ "url" := VString url ]}.

Definition timeServer (tz : string) : TimeServer.TimeServer :=
  {| TimeServer.defaultTimezone := tz |}.

(** A time zone database with one entry, nine hours east of UTC. *)
Definition seoul : string -> option TimeServer.Location :=
  fun name => if decide (name = "Asia/Seoul")
              then Some (TimeServer.FixedZone "Asia/Seoul" 32400) else None.

(** 2025-04-06T14:30:00Z *)
Definition clock : TimeServer.Time :=
  {| TimeServer.sec := 63879546600; TimeServer.nsec := 0; TimeServer.loc := TimeServer.UTC |}.

(** A server with both credentials, the struct that the invocation
    [query "golang"] decodes to, the struct of a fetch of a URL, and the
    headers of such a fetch. *)
Definition configured (c : Client) : GoogleSearch.GoogleSearchServer :=
  searchServer "key" "cx" c.

Definition golang : GoogleSearch.params :=
  {| GoogleSearch.Query := "golang"; GoogleSearch.Num := 0; GoogleSearch.Start := 0;
     GoogleSearch.Language := ""; GoogleSearch.Country := "";
     GoogleSearch.SafeSearch := false |}.



(** A peer that cannot be reached. *)
Definition unreachable : Client :=
  fun _ => inl (TransportError "connection refused").





(** The network, the same at every timeout. *)
Definition dial (c : Client) : Z -> Client := fun _ => c.

(** An environment with the two credentials. *)
Definition environment (key cx : string) : string -> string :=
  fun name => if decide (name = "API_KEY") then key
              else if decide (name = "SEARCH_ENGINE_ID") then cx else "".

End Samples.

(** * Properties *)

(** ** The bounded response reader *)

Section BoundedRead.
Import Go.

(** The loop of [io.ReadAll] on a limited reader, with fuel for one call
    more than there are pending bytes: it ends, with the first [N] of
    the pending bytes appended, and it reports the stream's own error
    only when the stream ran out before the limit. *)
Lemma ReadAll_loop_spec fuel : forall l b,
  (length (pending (R l)) < fuel)%nat ->
  ReadAll_loop fuel l b =
    Some (b ++ take (Z.to_nat (N l)) (pending (R l)),
          if Z.of_nat (length (pending (R l))) <? N l then closing (R l) else None).
Proof.
  induction fuel as [|fuel IH]; intros l b Hfuel; [lia|].
  cbn [ReadAll_loop]. unfold LimitedReader_Read.
  destruct (Z.leb_spec (N l) 0) as [HN|HN].
  - replace (Z.to_nat (N l)) with 0%nat by lia. cbn [take].
    destruct (Z.ltb_spec (Z.of_nat (length (pending (R l)))) (N l)); [lia|done].
  - set (k := if Z.of_nat bufsize >? N l then Z.to_nat (N l) else bufsize).
    assert (Hk : (1 <= k <= Z.to_nat (N l))%nat).
    { subst k. unfold bufsize. destruct (Z.gtb_spec (Z.of_nat 512) (N l)); lia. }
    unfold stream_Read. destruct l as [[data fin] n]; cbn [R N pending closing] in *.
    destruct data as [|x data].
    + rewrite take_nil, app_nil_r.
      destruct (Z.ltb_spec (Z.of_nat (length (@nil byte))) n) as [_|H]; [|cbn in H; lia].
      destruct fin; reflexivity.
    + rewrite IH; cbn [R N pending closing].
      2:{ rewrite length_drop. cbn [length] in *. lia. }
      f_equal. f_equal.
      * rewrite <- app_assoc. f_equal.
        rewrite length_take.
        destruct (Nat.le_gt_cases k (length (x :: data))) as [Hle|Hgt].
        -- rewrite Nat.min_l by done.
           replace (Z.to_nat (n - Z.of_nat k)) with (Z.to_nat n - k)%nat by lia.
           rewrite take_take_drop. f_equal. lia.
        -- rewrite (take_ge (x :: data) k) by lia.
           rewrite (drop_ge (x :: data) k) by lia.
           rewrite take_nil, app_nil_r. symmetry. apply take_ge. lia.
      * rewrite length_drop, length_take.
        destruct (Z.ltb_spec (Z.of_nat (length (x :: data) - k))
                    (n - Z.of_nat (k `min` length (x :: data))));
        destruct (Z.ltb_spec (Z.of_nat (length (x :: data))) n); try done; lia.
Qed.

(** [io.ReadAll] never runs out of fuel. *)
Lemma ReadAll_terminates l :
  is_Some (ReadAll_loop (ReadAll_fuel l) l []).
Proof. rewrite ReadAll_loop_spec by (unfold ReadAll_fuel; lia). eauto. Qed.





(** A stream that breaks after the cap is reached is cut without an
    error; one that breaks before it is a failed read. *)
Example ReadAll_broken_stream :
  ReadAll (LimitReader (Stream (list_byte_of_string "Hello") (Some "connection reset")) 5)
    = (list_byte_of_string "Hello", None) ∧
  ReadAll (LimitReader (Stream (list_byte_of_string "Hello") (Some "connection reset")) 6)
    = (list_byte_of_string "Hello", Some "connection reset").
Proof. split; by vm_compute. Qed.

End BoundedRead.

(** ** googlesearch *)

Section GoogleSearchProperties.
Import Go GoogleSearch.

Variable Unmarshal_response : string -> cause + GoogleApiResponse.

Local Abbreviation handleGoogleSearch := (GoogleSearch.handleGoogleSearch Unmarshal_response).

(** With a missing credential the handler stops before anything else. *)
Lemma handleGoogleSearch_no_apiKey s args :
  apiKey s = "" ->
  run (handleGoogleSearch s args) = (inl (Errorf "API key is not configured"), []).
Proof. intros H. unfold run, GoogleSearch.handleGoogleSearch. by rewrite decide_True. Qed.

Lemma handleGoogleSearch_no_searchEngineID s args :
  apiKey s ≠ "" -> searchEngineID s = "" ->
  run (handleGoogleSearch s args) = (inl (Errorf "Search Engine ID is not configured"), []).
Proof.
  intros H1 H2. unfold run, GoogleSearch.handleGoogleSearch.
  rewrite decide_False by done. by rewrite decide_True.
Qed.



(** The query parameters the request carries. *)
Lemma searchValues_num s p :
  searchValues s p !! "num" =
  Some [Itoa (int (if float_le (Num p) 0 then 5%Q
                   else if float_gt (Num p) 10 then 10%Q else Num p))].
Proof.
  unfold searchValues, Values_Add.
  repeat case_decide; destruct (SafeSearch p); by simplify_map_eq.
Qed.

Lemma searchValues_safe s p :
  searchValues s p !! "safe" = Some [if SafeSearch p then "active" else "off"].
Proof.
  unfold searchValues, Values_Add.
  repeat case_decide; destruct (SafeSearch p); by simplify_map_eq.
Qed.

(** [int] of a number between 1 and 10 drops the fraction and stays
    between 1 and 10. *)
Lemma int_in_range (q : Q) :
  (1 <= q)%Q -> (q <= 10)%Q ->
  int q = Qnum q / Z.pos (Qden q) ∧ 1 <= int q <= 10.
Proof.
  destruct q as [n d]. unfold Qle, int. cbn [Qnum Qden]. intros H1 H10.
  assert (Hq : Z.quot n (Z.pos d) = n / Z.pos d) by (apply Z.quot_div_nonneg; lia).
  assert (1 <= n / Z.pos d) by (apply Z.div_le_lower_bound; lia).
  assert (n / Z.pos d <= 10) by (apply Z.div_le_upper_bound; lia).
  rewrite Hq. unfold min_int64, max_int64.
  destruct (Z.leb_spec (- 2 ^ 63) (n / Z.pos d)); [|lia].
  destruct (Z.leb_spec (n / Z.pos d) (2 ^ 63 - 1)); [|lia].
  cbn [andb]. lia.
Qed.

(** The three cases of the count the handler names: the default for a
    count of zero or less, the limit for a count above ten, and the
    count itself, without its fraction, from one to ten. *)
Lemma searchValues_num_cases s p :
  ((Num p <= 0)%Q -> searchValues s p !! "num" = Some ["5"]) ∧
  ((10 < Num p)%Q -> searchValues s p !! "num" = Some ["10"]) ∧
  ((1 <= Num p)%Q -> (Num p <= 10)%Q ->
     searchValues s p !! "num" = Some [Itoa (Qnum (Num p) / Z.pos (Qden (Num p)))] ∧
     1 <= Qnum (Num p) / Z.pos (Qden (Num p)) <= 10).
Proof.
  rewrite searchValues_num. unfold float_le, float_gt. split; [|split].
  - intros H. apply Qle_bool_iff in H. by rewrite H.
  - intros H.
    destruct (Qle_bool (Num p) 0) eqn:E0.
    { apply Qle_bool_iff in E0. exfalso. apply (Qlt_irrefl 10).
      eapply Qlt_le_trans; [exact H|]. eapply Qle_trans; [exact E0|]. done. }
    destruct (Qle_bool (Num p) 10) eqn:E10; [|done].
    apply Qle_bool_iff in E10. exfalso. by apply (Qlt_not_le _ _ H).
  - intros H1 H10.
    destruct (Qle_bool (Num p) 0) eqn:E0.
    { apply Qle_bool_iff in E0. exfalso.
      assert (1 <= 0)%Q by (eapply Qle_trans; eauto). done. }
    rewrite (proj2 (Qle_bool_iff _ _) H10). cbn [negb].
    destruct (int_in_range (Num p) H1 H10) as [-> ?]. done.
Qed.

(** A count strictly between zero and one passes both comparisons and
    loses its fraction afterwards. *)
Lemma searchValues_num_fraction s p :
  (0 < Num p)%Q -> (Num p < 1)%Q -> searchValues s p !! "num" = Some ["0"].
Proof.
  intros H0 H1. rewrite searchValues_num. unfold float_le, float_gt.
  destruct (Qle_bool (Num p) 0) eqn:E0.
  { apply Qle_bool_iff in E0. exfalso. by apply (Qlt_not_le _ _ H0). }
  assert (H10 : (Num p <= 10)%Q).
  { apply Qlt_le_weak. eapply Qlt_trans; [exact H1|done]. }
  rewrite (proj2 (Qle_bool_iff _ _) H10). cbn [negb].
  destruct (Num p) as [n d]. unfold Qlt, int in *. cbn [Qnum Qden] in *.
  rewrite Z.quot_small by lia. done.
Qed.

(** What the decoder makes of the [safeSearch] key. *)
Lemma decodes_safeSearch args p :
  decodes args p ->
  match args !! "safeSearch" with
  | Some (VBool b) => SafeSearch p = b
  | _ => SafeSearch p = false
  end.
Proof.
  intros [_ Hu]. unfold Unmarshal_params in Hu.
  unfold mbind, cause_bind, mret, cause_ret in Hu.
  destruct (field_string args "country"); [done|].
  destruct (field_string args "language"); [done|].
  destruct (field_float64 args "num"); [done|].
  destruct (field_string args "query"); [done|].
  unfold field_bool in Hu.
  destruct (args !! "safeSearch") as [[|b|f|v]|]; try done;
    destruct (field_float64 args "start"); try done;
    by injection Hu as <-.
Qed.


(** C6: getApiStatus never fails; for every configuration it succeeds,
    sends nothing, and reports one of three fixed texts: the API-key
    text when the API key is empty (also when both credentials are),
    the search-engine-id text when only the search-engine id is empty,
    and the properly-configured text when both are present. *)
Theorem C6_getApiStatus_never_fails (s : GoogleSearchServer) (args : gmap string value) :
  ∃ msg : string,
    run (handleApiStatus s args) = (inr {| Text := msg |}, []) ∧
    msg ∈ [apiKeyMissing; searchEngineIDMissing; properlyConfigured] ∧
    (apiKey s = "" -> msg = apiKeyMissing) ∧
    (apiKey s ≠ "" -> searchEngineID s = "" -> msg = searchEngineIDMissing) ∧
    (apiKey s ≠ "" -> searchEngineID s ≠ "" -> msg = properlyConfigured).
Proof.
  unfold run, handleApiStatus. eexists. split; [reflexivity|].
  repeat case_decide; repeat split; intros; try done; set_solver.
Qed.

(** C10: the credential check comes before decoding and validation.
    With an empty API key every invocation ends in the API-key error,
    with an API key and an empty search-engine id in the
    search-engine-id error, whatever the arguments are, and no request
    is sent; hence the empty-query error is seen only when both
    credentials are non-empty. *)
Theorem C10_credentials_checked_first (s : GoogleSearchServer) (args : gmap string value) :
  (apiKey s = "" ->
     run (handleGoogleSearch s args) = (inl (Errorf "API key is not configured"), [])) ∧
  (apiKey s ≠ "" -> searchEngineID s = "" ->
     run (handleGoogleSearch s args) =
       (inl (Errorf "Search Engine ID is not configured"), [])) ∧
  ((run (handleGoogleSearch s args)).1 = inl (Errorf "Search query cannot be empty") ->
     apiKey s ≠ "" ∧ searchEngineID s ≠ "").
Proof.
  split; [apply handleGoogleSearch_no_apiKey|].
  split; [apply handleGoogleSearch_no_searchEngineID|].
  intros H. destruct (decide (apiKey s = "")) as [Hk|Hk].
  { rewrite handleGoogleSearch_no_apiKey in H by done. discriminate. }
  destruct (decide (searchEngineID s = "")) as [Hc|Hc]; [|done].
  rewrite handleGoogleSearch_no_searchEngineID in H by done. discriminate.
Qed.


End GoogleSearchProperties.

Section GoogleSearchInstances.
Import Go Samples.


Lemma C6_getApiStatus_never_fails_witness :
  ∃ msg : string,
    run (GoogleSearch.handleApiStatus (searchServer "" "" (respond 200 "{}")) ∅) =
      (inr {| Text := msg |}, []) ∧
    msg = GoogleSearch.apiKeyMissing.
Proof.
  destruct (C6_getApiStatus_never_fails (searchServer "" "" (respond 200 "{}")) ∅)
    as (msg & Hrun & _ & Hkey & _).
  exists msg. split; [exact Hrun|]. apply Hkey. reflexivity.
Defined.

Lemma C10_credentials_checked_first_witness :
  run (GoogleSearch.handleGoogleSearch noItems
         (searchServer "" "cx" (respond 200 "{}")) (query "")) =
    (inl (Errorf "API key is not configured"), []) ∧
  run (GoogleSearch.handleGoogleSearch noItems
         (searchServer "key" "" (respond 200 "{}")) (queryNum "" (1 # 2))) =
    (inl (Errorf "Search Engine ID is not configured"), []).
Proof.
  split.
  - apply (C10_credentials_checked_first noItems). reflexivity.
  - apply (C10_credentials_checked_first noItems); [discriminate | reflexivity].
Defined.



(** C1 at a count between zero and one: the comparison with zero is
    made before the fraction is dropped, so the request carries
    [num=0], outside the range from 1 to 10. *)
Theorem C1_fractional_num_sends_zero :
  ∃ req,
    (run (GoogleSearch.handleGoogleSearch noItems
            (searchServer "key" "cx" (respond 200 "{}"))
            (queryNum "golang" (1 # 2)))).2 = [req] ∧
    ReqQuery req !! "num" = Some ["0"].
Proof. eexists. split; [by vm_compute|]. by vm_compute. Qed.

(** C3 at an invocation without [safeSearch]: the struct field keeps
    its zero value [false], so the request carries [safe=off], not
    [safe=active]. *)
Theorem C3_absent_safeSearch_sends_off :
  ∃ req,
    (run (GoogleSearch.handleGoogleSearch noItems
            (searchServer "key" "cx" (respond 200 "{}"))
            (query "golang"))).2 = [req] ∧
    ReqQuery req !! "safe" = Some ["off"].
Proof. eexists. split; [by vm_compute|]. by vm_compute. Qed.

(** An explicit [safeSearch] is passed on as given. *)
Example explicit_safeSearch :
  (∃ req,
     (run (GoogleSearch.handleGoogleSearch noItems
             (searchServer "key" "cx" (respond 200 "{}"))
             (querySafe "golang" true))).2 = [req] ∧
     ReqQuery req !! "safe" = Some ["active"]) ∧
  (∃ req,
     (run (GoogleSearch.handleGoogleSearch noItems
             (searchServer "key" "cx" (respond 200 "{}"))
             (querySafe "golang" false))).2 = [req] ∧
     ReqQuery req !! "safe" = Some ["off"]).
Proof. split; eexists; (split; [by vm_compute|]); by vm_compute. Qed.

(** A search without results, as in the repository's test. *)
Example search_without_results :
  (run (GoogleSearch.handleGoogleSearch noItems
          (searchServer "test-key" "test-cx" (respond 200 "{}")) (query "no-results"))).1 =
  inr {| Text := "Google Search Results for: no-results" +:+ nl +:+ nl +:+
                 "Found approximately  results in  seconds" +:+ nl +:+ nl +:+
                 "No results found." |}.
Proof. by vm_compute. Qed.

(** Arguments that cannot be marshalled or decoded are refused after
    the credential check. *)
Example search_with_bad_arguments :
  run (GoogleSearch.handleGoogleSearch noItems
         (searchServer "key" "cx" (respond 200 "{}"))
         (<["num" := VNumber NaN]> (query "golang"))) =
    (inl (Wrapf "failed to marshal arguments" UnsupportedValueError), []) ∧
  run (GoogleSearch.handleGoogleSearch noItems
         (searchServer "key" "cx" (respond 200 "{}"))
         (<["num" := VString "five"]> (query "golang"))) =
    (inl (Wrapf "invalid parameters" (UnmarshalTypeError "num")), []).
Proof. split; by vm_compute. Qed.

End GoogleSearchInstances.

(** ** fetch *)

Section FetchProperties.
Import Go Fetch.

Variable NewRequest_error : string -> string -> option string.
Variable CanonicalMIMEHeaderKey : string -> string.
Variable Unmarshal_headers : string -> cause + gmap string string.
Variable MarshalIndent : responseDetails -> string.

Local Abbreviation handleFetchURL :=
  (Fetch.handleFetchURL NewRequest_error CanonicalMIMEHeaderKey Unmarshal_headers MarshalIndent).
Local Abbreviation requestHeader :=
  (Fetch.requestHeader CanonicalMIMEHeaderKey Unmarshal_headers).



End FetchProperties.

Section FetchInstances.
Import Go Samples.



(** The URLs of the repository's validation test are refused. *)
Example invalid_urls :
  Forall (fun u =>
            run (Fetch.handleFetchURL accept keep noHeaders render
                   (fetchServer 1024 (respond 200 "ok")) (fetch u)) =
              (inl (Errorf "URL must begin with http:// or https://"), []))
         ["ftp://example.com"; "example.com"; "//example.com"; "www.example.com"].
Proof. repeat constructor. Qed.

End FetchInstances.

(** ** The status of the answer, in both HTTP handlers *)

Section StatusProperties.
Import Go Samples.




End StatusProperties.

(** ** timeserver *)

Section TimeServerProperties.
Import Go TimeServer.

Variable zoneinfo : string -> option Location.
Variable Now : Time.

Local Abbreviation LoadLocation := (TimeServer.LoadLocation zoneinfo).
Local Abbreviation convertTimeToTimezone := (TimeServer.convertTimeToTimezone zoneinfo Now).

(** The empty string is no timestamp. *)
Lemma Parse_empty : Parse "" = inl (ParseError "").
Proof. reflexivity. Qed.


(** C9: converting 2025-04-06T14:30:00Z to UTC gives a time that
    formats as the same text, with the zone [Z]; and for every timezone
    that loads and every timestamp that parses, the converted time is
    the parsed instant, shown in the loaded location: only the location,
    and with it the offset and the wall clock, changes. *)
Theorem C9_conversion_keeps_instant (s : TimeServer) :
  (∃ t, convertTimeToTimezone s "2025-04-06T14:30:00Z" "UTC" = ("UTC", t, None) ∧
        Format t = "2025-04-06T14:30:00Z") ∧
  (∀ timeStr requestedTimezone l parsedTime,
     LoadLocation (resolveTimezone s requestedTimezone) = inr l ->
     Parse timeStr = inr parsedTime ->
     ∃ t, convertTimeToTimezone s timeStr requestedTimezone =
            (resolveTimezone s requestedTimezone, t, None) ∧
          sec t = sec parsedTime ∧ nsec t = nsec parsedTime ∧ loc t = l).
Proof.
  split.
  - eexists. split; reflexivity.
  - intros timeStr requestedTimezone l parsedTime Hl Hp.
    unfold TimeServer.convertTimeToTimezone. fold (resolveTimezone s requestedTimezone).
    rewrite Hl. case_decide as He.
    { subst timeStr. rewrite Parse_empty in Hp. discriminate. }
    rewrite Hp. eexists. split; [reflexivity|]. done.
Qed.

End TimeServerProperties.

Section TimeServerInstances.
Import Go Samples.



Lemma C9_conversion_keeps_instant_witness :
  ∃ t, TimeServer.convertTimeToTimezone seoul clock (timeServer "UTC")
         "2025-04-06T14:30:00Z" "Asia/Seoul" = ("Asia/Seoul", t, None) ∧
       TimeServer.sec t = 63879546600 ∧ TimeServer.nsec t = 0 ∧
       TimeServer.Format t = "2025-04-06T23:30:00+09:00".
Proof.
  destruct (proj2 (C9_conversion_keeps_instant seoul clock (timeServer "UTC"))
              "2025-04-06T14:30:00Z" "Asia/Seoul"
              (TimeServer.FixedZone "Asia/Seoul" 32400) clock
              eq_refl eq_refl) as (t & Hconv & Hsec & Hnsec & Hloc).
  exists t. split; [exact Hconv|]. split; [exact Hsec|]. split; [exact Hnsec|].
  destruct t as [ts tn tl]. cbn in Hsec, Hnsec, Hloc. subst. by vm_compute.
Defined.

(** The text in the other zone denotes the instant it came from. *)
Example converted_text_parses_back :
  ∃ t u, TimeServer.Parse "2025-04-06T23:30:00+09:00" = inr t ∧
         TimeServer.Parse "2025-04-06T14:30:00Z" = inr u ∧
         TimeServer.sec t = TimeServer.sec u.
Proof. eexists _, _. repeat split. Qed.

(** The texts of the handler, with and without a timestamp. *)
Example getCurrentTime_texts :
  (run (TimeServer.handleGetCurrentTime seoul clock (timeServer "Asia/Seoul")
          {[ "timezone" := VString "UTC" ]})).1 =
    inr {| Text := "Current time (UTC): 2025-04-06T14:30:00Z" |} ∧
  (run (TimeServer.handleGetCurrentTime seoul clock (timeServer "Asia/Seoul")
          (<["timeStr" := VString "2025-04-06T14:30:00Z"]> {[ "timezone" := VString "" ]}))).1 =
    inr {| Text := "Converted time (Asia/Seoul): 2025-04-06T23:30:00+09:00" |} ∧
  (run (TimeServer.handleGetCurrentTime seoul clock (timeServer "Asia/Seoul")
          (<["timeStr" := VString "2025/04/06 14:30:00"]>
             {[ "timezone" := VString "Asia/Seoul" ]}))).1 =
    inl (Wrapf "invalid time format (expected RFC3339, e.g. 2025-04-06T14:30:00Z)"
           (ParseError "2025/04/06 14:30:00")).
Proof. repeat split; by vm_compute. Qed.

End TimeServerInstances.

(** * Further properties of the handlers *)

(** ** googlesearch: what is sent, and how an exchange ends *)

Section GoogleSearchExchange.
Import Go GoogleSearch.

Variable Unmarshal_response : string -> cause + GoogleApiResponse.

Local Abbreviation handleGoogleSearch := (GoogleSearch.handleGoogleSearch Unmarshal_response).







End GoogleSearchExchange.

(** ** googlesearch: the query parameters and the report *)

Section GoogleSearchRequest.
Import Go GoogleSearch.

(** The parameters of a request, one insertion each. *)
Lemma searchValues_eq s p :
  searchValues s p =
  <["safe" := [if SafeSearch p then "active" else "off"]]>
    ((if decide (Country p = "") then id else <["gl" := [Country p]]>)
       ((if decide (Language p = "") then id else <["lr" := ["lang_" +:+ Language p]]>)
          (<["start" := [Itoa (int (if float_le (Start p) 0 then 1%Q else Start p))]]>
             (<["num" := [Itoa (int (if float_le (Num p) 0 then 5%Q
                                 else if float_gt (Num p) 10 then 10%Q else Num p))]]>
                (<["cx" := [searchEngineID s]]>
                   (<["key" := [apiKey s]]> {["q" := [Query p]]})))))).
Proof.
  unfold searchValues, Values_Add.
  repeat case_decide; destruct (SafeSearch p); cbn [id]; by simplify_map_eq.
Qed.

(** X5: the request names the query, the API key and the search-engine
    id as they are, and no parameter twice: every parameter it carries
    is one of the eight the handler knows and has a single value. *)
Theorem X5_search_parameters (s : GoogleSearchServer) (p : params) :
  searchValues s p !! "q" = Some [Query p] ∧
  searchValues s p !! "key" = Some [apiKey s] ∧
  searchValues s p !! "cx" = Some [searchEngineID s] ∧
  (∀ k vs, searchValues s p !! k = Some vs ->
     k ∈ ["q"; "key"; "cx"; "num"; "start"; "lr"; "gl"; "safe"] ∧ ∃ v, vs = [v]).
Proof.
  rewrite searchValues_eq.
  split; [|split; [|split]];
    try (repeat case_decide; cbn [id]; by simplify_map_eq).
  intros k vs. repeat case_decide; cbn [id];
    rewrite ?lookup_insert, ?lookup_singleton; repeat case_decide;
    intros Hlk; simplify_eq; (split; [set_solver|eauto]).
Qed.

(** [int] of a number from zero up to the largest [int] drops the
    fraction. *)
Lemma int_floor (q : Q) :
  (0 <= q)%Q -> (q <= inject_Z max_int64)%Q ->
  int q = Qnum q / Z.pos (Qden q) ∧ 0 <= int q.
Proof.
  destruct q as [n d]. unfold Qle, int, inject_Z. cbn [Qnum Qden]. intros H0 Hmax.
  assert (Hq : Z.quot n (Z.pos d) = n / Z.pos d) by (apply Z.quot_div_nonneg; lia).
  assert (0 <= n / Z.pos d) by (apply Z.div_pos; lia).
  assert (n / Z.pos d <= max_int64) by (apply Z.div_le_upper_bound; lia).
  rewrite Hq. unfold min_int64 in *.
  destruct (Z.leb_spec (- 2 ^ 63) (n / Z.pos d)); [|lia].
  destruct (Z.leb_spec (n / Z.pos d) max_int64); [|lia].
  cbn [andb]. lia.
Qed.

(** X3: the start offset.  An offset of zero or less, or none, is sent
    as 1; an offset from 1 up to the largest [int] is sent without its
    fraction, and is at least 1. *)
Theorem X3_search_start (s : GoogleSearchServer) (p : params) :
  ((Start p <= 0)%Q -> searchValues s p !! "start" = Some ["1"]) ∧
  ((1 <= Start p)%Q -> (Start p <= inject_Z max_int64)%Q ->
     searchValues s p !! "start" = Some [Itoa (Qnum (Start p) / Z.pos (Qden (Start p)))] ∧
     1 <= Qnum (Start p) / Z.pos (Qden (Start p))).
Proof.
  assert (Hs : searchValues s p !! "start" =
               Some [Itoa (int (if float_le (Start p) 0 then 1%Q else Start p))]).
  { rewrite searchValues_eq. repeat case_decide; cbn [id]; by simplify_map_eq. }
  rewrite Hs. unfold float_le. split.
  - intros H. apply Qle_bool_iff in H. by rewrite H.
  - intros H1 Hmax.
    destruct (Qle_bool (Start p) 0) eqn:E0.
    { apply Qle_bool_iff in E0. exfalso.
      assert (1 <= 0)%Q by (eapply Qle_trans; eauto). done. }
    assert (H0 : (0 <= Start p)%Q) by (eapply Qle_trans; [|exact H1]; done).
    destruct (int_floor (Start p) H0 Hmax) as [-> _]. split; [done|].
    destruct (Start p) as [n d]. unfold Qle in H1. cbn [Qnum Qden] in *.
    apply Z.div_le_lower_bound; lia.
Qed.

(** X4: the language and the country.  A language is sent as [lr] with
    the prefix [lang_], a country as [gl]; without one, or with an
    empty one, the parameter is left out: no default is filled in. *)
Theorem X4_search_language_and_country (s : GoogleSearchServer) (p : params) :
  searchValues s p !! "lr" =
    (if decide (Language p = "") then None else Some ["lang_" +:+ Language p]) ∧
  searchValues s p !! "gl" =
    (if decide (Country p = "") then None else Some [Country p]).
Proof.
  rewrite searchValues_eq. split; repeat case_decide; cbn [id]; by simplify_map_eq.
Qed.




End GoogleSearchRequest.

(** ** fetch: the request and how an exchange ends *)

Section FetchExchange.
Import Go Fetch.

Variable NewRequest_error : string -> string -> option string.
Variable CanonicalMIMEHeaderKey : string -> string.
Variable Unmarshal_headers : string -> cause + gmap string string.
Variable MarshalIndent : responseDetails -> string.

Local Abbreviation handleFetchURL :=
  (Fetch.handleFetchURL NewRequest_error CanonicalMIMEHeaderKey Unmarshal_headers MarshalIndent).
Local Abbreviation requestHeader :=
  (Fetch.requestHeader CanonicalMIMEHeaderKey Unmarshal_headers).
Local Abbreviation Header_Set := (Fetch.Header_Set CanonicalMIMEHeaderKey).








(** X15: the content type.  Without custom headers the request carries
    the user agent of the server, the content type that was asked for,
    and, when none was asked for, [application/json] for a body sent
    with POST, PUT or PATCH, and no content type otherwise. *)
Theorem X15_fetch_content_type (s : FetchServer) (p : params) :
  CanonicalMIMEHeaderKey "Content-Type" ≠ CanonicalMIMEHeaderKey "User-Agent" ->
  Headers p = "" ->
  ∃ h, requestHeader s p (fetchMethod p) = inr h ∧
       h !! CanonicalMIMEHeaderKey "User-Agent" = Some (userAgent s) ∧
       h !! CanonicalMIMEHeaderKey "Content-Type" =
         if decide (ContentType p ≠ "") then Some (ContentType p)
         else if decide (Body p ≠ "" ∧ (fetchMethod p = "POST" ∨ fetchMethod p = "PUT" ∨
                                        fetchMethod p = "PATCH"))
              then Some "application/json" else None.
Proof.
  intros Hne Hh. unfold Fetch.requestHeader.
  rewrite (decide_False (P := Headers p ≠ "")) by (by intros []).
  eexists. split; [reflexivity|]. unfold Fetch.Header_Set.
  repeat case_decide; by simplify_map_eq.
Qed.



End FetchExchange.

(** ** timeserver: the timezone used, the clock, and the texts *)

Section TimeServerConversion.
Import Go TimeServer.

Variable zoneinfo : string -> option Location.
Variable Now : Time.

Local Abbreviation LoadLocation := (TimeServer.LoadLocation zoneinfo).
Local Abbreviation convertTimeToTimezone := (TimeServer.convertTimeToTimezone zoneinfo Now).
Local Abbreviation handleGetCurrentTime := (TimeServer.handleGetCurrentTime zoneinfo Now).

(** X17: a requested timezone takes precedence: the conversion then
    does not depend on the server's default; and a call without a
    timezone is the call with the default. *)
Theorem X17_requested_timezone_first (s : TimeServer) (timeStr requestedTimezone : string) :
  (requestedTimezone ≠ "" ->
     ∀ s', convertTimeToTimezone s' timeStr requestedTimezone =
           convertTimeToTimezone s timeStr requestedTimezone) ∧
  convertTimeToTimezone s timeStr "" =
    convertTimeToTimezone s timeStr (defaultTimezone s).
Proof.
  unfold TimeServer.convertTimeToTimezone. split.
  - intros Hr s'. by rewrite !decide_False by done.
  - rewrite decide_True by done. by destruct (decide (defaultTimezone s = "")).
Qed.

(** X18: without a timestamp the conversion reads the clock: in every
    timezone that loads, the result is the instant of the clock, shown
    in that timezone. *)
Theorem X18_current_time (s : TimeServer) (requestedTimezone : string) (l : Location) :
  LoadLocation (resolveTimezone s requestedTimezone) = inr l ->
  convertTimeToTimezone s "" requestedTimezone =
    (resolveTimezone s requestedTimezone,
     {| sec := sec Now; nsec := nsec Now; loc := l |}, None).
Proof.
  intros Hl. unfold TimeServer.convertTimeToTimezone.
  fold (resolveTimezone s requestedTimezone). rewrite Hl. by rewrite decide_True.
Qed.



End TimeServerConversion.

(** ** googlesearch: the server that [main] starts *)

Section GoogleSearchMain.
Import Go GoogleSearch.

Variable Unmarshal_response : string -> cause + GoogleApiResponse.
Variable dial : Z -> Client.
Variable Getenv : string -> string.

(** X21: a flag takes precedence over the environment, and the status
    tool of the server that [main] starts reports a proper
    configuration exactly when each credential is given by its flag or,
    failing that, by its environment variable. *)
Theorem X21_main_credentials (f : flags) (args : gmap string value) :
  (apiKeyFlag f ≠ "" -> apiKey (mainServer dial Getenv f) = apiKeyFlag f) ∧
  (searchEngineIDFlag f ≠ "" ->
     searchEngineID (mainServer dial Getenv f) = searchEngineIDFlag f) ∧
  ((run (handleApiStatus (mainServer dial Getenv f) args)).1 =
     inr {| Text := properlyConfigured |} ↔
   (apiKeyFlag f ≠ "" ∨ Getenv "API_KEY" ≠ "") ∧
   (searchEngineIDFlag f ≠ "" ∨ Getenv "SEARCH_ENGINE_ID" ≠ "")).
Proof.
  unfold run, handleApiStatus, mainServer, NewGoogleSearchServer.
  cbn [apiKey searchEngineID fst mret IO_ret ret].
  split; [intros Hf; by rewrite decide_False|].
  split; [intros Hf; by rewrite decide_False|].
  set (k := if decide (apiKeyFlag f = "") then Getenv "API_KEY" else apiKeyFlag f).
  set (c := if decide (searchEngineIDFlag f = "") then Getenv "SEARCH_ENGINE_ID"
            else searchEngineIDFlag f).
  assert (Hk : k ≠ "" ↔ apiKeyFlag f ≠ "" ∨ Getenv "API_KEY" ≠ "").
  { subst k. destruct (decide (apiKeyFlag f = "")) as [E|E].
    - split; [by right|by intros [?|?]].
    - split; [by left|done]. }
  assert (Hc : c ≠ "" ↔ searchEngineIDFlag f ≠ "" ∨ Getenv "SEARCH_ENGINE_ID" ≠ "").
  { subst c. destruct (decide (searchEngineIDFlag f = "")) as [E|E].
    - split; [by right|by intros [?|?]].
    - split; [by left|done]. }
  rewrite <- Hk, <- Hc.
  unfold apiKeyMissing, searchEngineIDMissing, properlyConfigured.
  destruct (decide (k = "")) as [Ek|Ek], (decide (c = "")) as [Ec|Ec];
    (split; [intros Heq; try discriminate Heq|intros [? ?]]); done.
Qed.

(** X22: what [main] warns of: when a credential is given neither by
    its flag nor by the environment, every search on the server it
    starts fails with a configuration error, and sends nothing. *)
Theorem X22_main_searches_fail (f : flags) (args : gmap string value) :
  (apiKeyFlag f = "" ∧ Getenv "API_KEY" = "") ∨
  (searchEngineIDFlag f = "" ∧ Getenv "SEARCH_ENGINE_ID" = "") ->
  ∃ msg, msg ∈ ["API key is not configured"; "Search Engine ID is not configured"] ∧
         run (handleGoogleSearch Unmarshal_response (mainServer dial Getenv f) args) =
           (inl (Errorf msg), []).
Proof.
  intros H.
  destruct (decide (apiKey (mainServer dial Getenv f) = "")) as [Hk|Hk].
  { eexists. split; [|by apply handleGoogleSearch_no_apiKey]. by repeat constructor. }
  eexists. split; [|apply handleGoogleSearch_no_searchEngineID; [done|]];
    [by repeat constructor|].
  destruct H as [[Hf He]|[Hf He]].
  - exfalso. apply Hk. unfold mainServer, NewGoogleSearchServer. cbn [apiKey].
    by rewrite decide_True.
  - unfold mainServer, NewGoogleSearchServer. cbn [searchEngineID].
    by rewrite decide_True.
Qed.

End GoogleSearchMain.

(** ** The further properties at sample invocations *)

Section FurtherInstances.
Import Go Samples.


Lemma X3_search_start_witness :
  GoogleSearch.searchValues (configured unreachable)
    {| GoogleSearch.Query := "golang"; GoogleSearch.Num := 0; GoogleSearch.Start := 0;
       GoogleSearch.Language := ""; GoogleSearch.Country := "";
       GoogleSearch.SafeSearch := false |} !! "start" = Some ["1"] ∧
  GoogleSearch.searchValues (configured unreachable)
    {| GoogleSearch.Query := "golang"; GoogleSearch.Num := 0; GoogleSearch.Start := 23 # 2;
       GoogleSearch.Language := ""; GoogleSearch.Country := "";
       GoogleSearch.SafeSearch := false |} !! "start" = Some ["11"].
Proof.
  split.
  - apply X3_search_start. done.
  - refine (proj1 (proj2 (X3_search_start _ _) _ _)); done.
Defined.

Lemma X5_search_parameters_witness :
  (["golang"] : list string) = ["golang"] ∧
  "q" ∈ ["q"; "key"; "cx"; "num"; "start"; "lr"; "gl"; "safe"].
Proof.
  destruct (X5_search_parameters (configured unreachable) golang) as (Hq & _ & _ & Hall).
  split; [done|]. exact (proj1 (Hall "q" ["golang"] Hq)).
Defined.








Lemma X15_fetch_content_type_witness :
  ∃ h, Fetch.requestHeader keep noHeaders (fetchServer 1024 unreachable)
         {| Fetch.URL := "http://example.com/"; Fetch.Method := "POST";
            Fetch.Body := "data"; Fetch.ContentType := ""; Fetch.Headers := "" |}
         "POST" = inr h ∧
       h !! "User-Agent" = Some "MCP-Fetch-Server/1.0" ∧
       h !! "Content-Type" = Some "application/json".
Proof.
  apply (X15_fetch_content_type keep noHeaders (fetchServer 1024 unreachable)
           {| Fetch.URL := "http://example.com/"; Fetch.Method := "POST";
              Fetch.Body := "data"; Fetch.ContentType := ""; Fetch.Headers := "" |});
    done.
Defined.


Lemma X17_requested_timezone_first_witness :
  TimeServer.convertTimeToTimezone seoul clock (timeServer "UTC") "" "Asia/Seoul" =
  TimeServer.convertTimeToTimezone seoul clock (timeServer "Asia/Seoul") "" "Asia/Seoul".
Proof.
  apply (proj1 (X17_requested_timezone_first seoul clock (timeServer "Asia/Seoul")
                  "" "Asia/Seoul")).
  done.
Defined.

Lemma X18_current_time_witness :
  TimeServer.convertTimeToTimezone seoul clock (timeServer "Asia/Seoul") "" "" =
    ("Asia/Seoul",
     {| TimeServer.sec := 63879546600; TimeServer.nsec := 0;
        TimeServer.loc := TimeServer.FixedZone "Asia/Seoul" 32400 |}, None).
Proof.
  apply (X18_current_time seoul clock (timeServer "Asia/Seoul") ""). reflexivity.
Defined.



Lemma X21_main_credentials_witness :
  GoogleSearch.apiKey
    (GoogleSearch.mainServer (dial unreachable) (environment "env-key" "env-cx")
       {| GoogleSearch.timeoutFlag := 30; GoogleSearch.userAgentFlag := "agent";
          GoogleSearch.maxBodySizeFlag := 1024; GoogleSearch.apiKeyFlag := "flag-key";
          GoogleSearch.searchEngineIDFlag := "" |}) = "flag-key" ∧
  (run (GoogleSearch.handleApiStatus
          (GoogleSearch.mainServer (dial unreachable) (environment "env-key" "env-cx")
             GoogleSearch.defaultFlags) ∅)).1 =
    inr {| Text := GoogleSearch.properlyConfigured |}.
Proof.
  split.
  - apply (proj1 (X21_main_credentials (dial unreachable) (environment "env-key" "env-cx")
                    {| GoogleSearch.timeoutFlag := 30; GoogleSearch.userAgentFlag := "agent";
                       GoogleSearch.maxBodySizeFlag := 1024;
                       GoogleSearch.apiKeyFlag := "flag-key";
                       GoogleSearch.searchEngineIDFlag := "" |} ∅)).
    done.
  - apply (proj2 (proj2 (X21_main_credentials (dial unreachable)
                           (environment "env-key" "env-cx") GoogleSearch.defaultFlags ∅))).
    split; by right.
Defined.

Lemma X22_main_searches_fail_witness :
  ∃ msg, msg ∈ ["API key is not configured"; "Search Engine ID is not configured"] ∧
         run (GoogleSearch.handleGoogleSearch noItems
                (GoogleSearch.mainServer (dial unreachable) (environment "" "")
                   GoogleSearch.defaultFlags)
                (query "golang")) = (inl (Errorf msg), []).
Proof.
  apply (X22_main_searches_fail noItems (dial unreachable) (environment "" "")
           GoogleSearch.defaultFlags (query "golang")).
  by left.
Defined.

End FurtherInstances.

(** ** Arguments the handlers do not know, and a cap without room *)

Section UnknownArguments.
Import Go.

Lemma Marshal_insert args k v :
  marshals v -> Marshal args = inr args -> Marshal (<[k := v]> args) = inr (<[k := v]> args).
Proof.
  unfold Marshal. intros Hv. case_decide as Hall; [intros _|done].
  rewrite decide_True; [done|]. by apply map_Forall_insert_2.
Qed.

(** X23: the search handler ignores arguments it does not know: an
    argument whose ASCII name is none of its six, in whatever letter
    case, changes neither the result nor what is sent, if it can be
    marshalled. *)
Theorem X23_search_ignores_unknown_arguments
    (Unmarshal_response : string -> cause + GoogleSearch.GoogleApiResponse)
    (s : GoogleSearch.GoogleSearchServer) (args : gmap string value) (k : string) (v : value) :
  isASCII k = true ->
  ToLower k ∉ ["country"; "language"; "num"; "query"; "safesearch"; "start"] ->
  marshals v -> Marshal args = inr args ->
  run (GoogleSearch.handleGoogleSearch Unmarshal_response s (<[k := v]> args)) =
  run (GoogleSearch.handleGoogleSearch Unmarshal_response s args).
Proof.
  intros _ Hk Hv Hm.
  assert (Hu : GoogleSearch.Unmarshal_params (<[k := v]> args) =
               GoogleSearch.Unmarshal_params args).
  { unfold GoogleSearch.Unmarshal_params, field_string, field_float64, field_bool.
    rewrite !lookup_insert_ne; [done|..]; intros ->; apply Hk; by repeat constructor. }
  unfold run, GoogleSearch.handleGoogleSearch, mbind, IO_bind, bind.
  repeat case_decide; try done.
  rewrite (Marshal_insert args k v Hv Hm), Hm. cbn [check ret]. by rewrite Hu.
Qed.

Lemma X23_search_ignores_unknown_arguments_witness :
  run (GoogleSearch.handleGoogleSearch Samples.noItems
         (Samples.configured (Samples.respond 200 "{}"))
         (<["Page" := VNumber (Finite 2)]> (Samples.query "golang"))) =
  run (GoogleSearch.handleGoogleSearch Samples.noItems
         (Samples.configured (Samples.respond 200 "{}")) (Samples.query "golang")).
Proof.
  apply X23_search_ignores_unknown_arguments; [done| |done|by vm_compute].
  intros Hin. by repeat (apply elem_of_cons in Hin as [Hin|Hin]; [done|]);
    apply elem_of_nil in Hin.
Defined.



End UnknownArguments.
